(** * git-meta python bindings: [gitmeta.repo] and [gitmeta.exceptions]

    A shallow embedding of [src/python/gitmeta/repo.py] and
    [src/python/gitmeta/exceptions.py].

    - Text ([str]) is a [string]: the sequence of its code points, restricted
      to U+0000..U+00FF.
    - Python values that can sit in an argument list are [pyval].
    - The operating system (file system and child processes) is a [Platform]:
      a state type with [os.path.exists] and [subprocess.Popen] followed by
      [communicate] as its two operations.
    - Methods are computations in a state-and-exception monad [M]; its state
      holds the platform state and the log of every [Popen] call made. *)

From Stdlib Require Import String Ascii List ZArith Bool Lia.
Import ListNotations.
Open Scope string_scope.
Open Scope Z_scope.

(** ** Text *)

Module Str.

(** [str.isspace] on one code point below U+0100: TAB..CR, FS..US, SPACE,
    NEL and NBSP. *)
Definition isspace (c : ascii) : bool :=
  let n := nat_of_ascii c in
  ((9 <=? n) && (n <=? 13))%nat
  || ((28 <=? n) && (n <=? 32))%nat
  || (n =? 133)%nat
  || (n =? 160)%nat.

Definition is_empty (s : string) : bool :=
  match s with EmptyString => true | String _ _ => false end.

(** [s.lstrip()] *)
Fixpoint lstrip (s : string) : string :=
  match s with
  | EmptyString => EmptyString
  | String c s' => if isspace c then lstrip s' else s
  end.

(** [s.rstrip()] *)
Fixpoint rstrip (s : string) : string :=
  match s with
  | EmptyString => EmptyString
  | String c s' =>
      let r := rstrip s' in
      if isspace c && is_empty r then EmptyString else String c r
  end.

(** [s.strip()]: drop the leading run of whitespace, then the trailing one. *)
Definition strip (s : string) : string := rstrip (lstrip s).

(** Every code point of [s] is whitespace. *)
Fixpoint all_space (s : string) : bool :=
  match s with
  | EmptyString => true
  | String c s' => isspace c && all_space s'
  end.

(** First and last code point, when there is one. *)
Definition first (s : string) : option ascii :=
  match s with EmptyString => None | String c _ => Some c end.

Fixpoint last (s : string) : option ascii :=
  match s with
  | EmptyString => None
  | String c EmptyString => Some c
  | String _ s' => last s'
  end.

Definition is_space_opt (o : option ascii) : bool :=
  match o with None => false | Some c => isspace c end.

(** [t] is [s] without its leading and its trailing whitespace: [s] is
    [t] between two runs of whitespace, and [t] neither starts nor ends
    with whitespace.  What lies inside [t] is that of [s], untouched. *)
Definition is_trim_of (s t : string) : Prop :=
  exists l r,
    s = l ++ t ++ r /\
    all_space l = true /\ all_space r = true /\
    is_space_opt (first t) = false /\ is_space_opt (last t) = false.

(** [s.startswith('/')] and [s.endswith('/')] *)
Definition startswith_sep (s : string) : bool :=
  match first s with Some c => Ascii.eqb c "/" | None => false end.

Definition endswith_sep (s : string) : bool :=
  match last s with Some c => Ascii.eqb c "/" | None => false end.

End Str.

(** ** [os.path.join] (posixpath) *)

Module Path.

(** One round of the loop of [posixpath.join]: an absolute component
    replaces what was joined so far, any other one is appended, after a
    separator unless the path is empty or already ends with one. *)
Definition join_step (path b : string) : string :=
  if Str.startswith_sep b then b
  else if Str.is_empty path || Str.endswith_sep path then path ++ b
  else path ++ "/" ++ b.

Definition join (a : string) (p : list string) : string :=
  fold_left join_step p a.

(** Collapse every run of separators into one separator. *)
Fixpoint squeeze (s : string) : string :=
  match s with
  | EmptyString => EmptyString
  | String c s' =>
      if Ascii.eqb c "/" && Str.startswith_sep s' then squeeze s'
      else String c (squeeze s')
  end.

End Path.

(** ** Python values *)

(** The values that can reach an argument list or a parameter of [Repo]. *)
#[local] Set Warnings "-register-all".
Inductive pyval : Type :=
| PNone
| PStr (s : string)
| PInt (z : Z)
| PFunc (qualname : string)
| PList (items : list pyval)
| PTuple (items : list pyval).

(** [isinstance(v, list)] *)
Definition isinstance_list (v : pyval) : bool :=
  match v with PList _ => true | _ => false end.

(** ** Exceptions ([gitmeta/exceptions.py]) *)

Module exceptions.

(** The classes of the package and the built-in ones they meet. *)
Inductive cls : Type :=
| BaseException
| Exception
| OSError
| TypeError
| AssertionError
| GitMetaException
| MissingGitMetaCloneException
| NoSuchPathException
| GitMetaCommandException.

Definition cls_eqb (a b : cls) : bool :=
  match a, b with
  | BaseException, BaseException
  | Exception, Exception
  | OSError, OSError
  | TypeError, TypeError
  | AssertionError, AssertionError
  | GitMetaException, GitMetaException
  | MissingGitMetaCloneException, MissingGitMetaCloneException
  | NoSuchPathException, NoSuchPathException
  | GitMetaCommandException, GitMetaCommandException => true
  | _, _ => false
  end.

(** The base classes each [class] statement lists. *)
Definition bases (c : cls) : list cls :=
  match c with
  | BaseException => []
  | Exception => [BaseException]
  | OSError => [Exception]
  | TypeError => [Exception]
  | AssertionError => [Exception]
  | GitMetaException => [Exception]
  | MissingGitMetaCloneException => [GitMetaException]
  | NoSuchPathException => [GitMetaException; OSError]
  | GitMetaCommandException => [GitMetaException]
  end.

(** [issubclass(c, d)]: [d] is reached from [c] along [bases]. The
    hierarchy is four levels deep. *)
Fixpoint issubclass_fuel (fuel : nat) (c d : cls) : bool :=
  cls_eqb c d ||
  match fuel with
  | O => false
  | S k => existsb (fun b => issubclass_fuel k b d) (bases c)
  end.

Definition issubclass (c d : cls) : bool := issubclass_fuel 4 c d.

(** A raised exception object.  [GitMetaCommandException.__init__] stores
    its four parameters; [args] being the attribute every exception has, the
    assignment keeps the elements of the sequence it is given, in order.
    [RaiseBuiltin] stands for what the platform itself raises. *)
Inductive exn : Type :=
| RaiseMissingClone (clone_dir : string)
| RaiseNoSuchPath (message : string)
| RaiseCommand (returncode : Z) (args : list pyval) (stdout stderr : string)
| RaiseAssertion
| RaiseBuiltin (c : cls) (message : string).

Definition class_of (e : exn) : cls :=
  match e with
  | RaiseMissingClone _ => MissingGitMetaCloneException
  | RaiseNoSuchPath _ => NoSuchPathException
  | RaiseCommand _ _ _ _ => GitMetaCommandException
  | RaiseAssertion => AssertionError
  | RaiseBuiltin c _ => c
  end.

(** [except handler:] catches [e]. *)
Definition catches (handler : cls) (e : exn) : bool :=
  issubclass (class_of e) handler.

End exceptions.

Import exceptions.

(** ** The operating system *)

(** One call of [subprocess.Popen]: the command vector and [cwd]. *)
Record invocation : Type := {
  inv_cmd : list pyval;
  inv_cwd : option string
}.

(** What [Popen(...)] followed by [communicate()] produces: the child ran to
    its end, leaving [returncode] and both captured streams, or the call
    itself raised and there is no child result. *)
Inductive completed : Type :=
| Exited (returncode : Z) (stdout stderr : string)
| LaunchFailed (e : exn).

Record Platform : Type := {
  Sys : Type;
  path_exists : string -> Sys -> bool;
  popen_communicate : list pyval -> option string -> Sys -> completed * Sys
}.

(** ** Computations *)

Inductive result (A : Type) : Type :=
| Return (a : A)
| Raise (e : exn).
Arguments Return {A} a.
Arguments Raise {A} e.

Record State (P : Platform) : Type := {
  sys : Sys P;
  popen_calls : list invocation
}.
Arguments sys {P} _.
Arguments popen_calls {P} _.

Definition M (P : Platform) (A : Type) : Type := State P -> result A * State P.

Section Computations.
Context {P : Platform}.

Definition ret {A} (a : A) : M P A := fun st => (Return a, st).

Definition raise {A} (e : exn) : M P A := fun st => (Raise e, st).

Definition bind {A B} (m : M P A) (k : A -> M P B) : M P B :=
  fun st =>
    match m st with
    | (Return a, st') => k a st'
    | (Raise e, st') => (Raise e, st')
    end.

(** [try: body / except handler: h] *)
Definition try_except {A} (body : M P A) (handler : cls) (h : M P A) : M P A :=
  fun st =>
    match body st with
    | (Return a, st') => (Return a, st')
    | (Raise e, st') => if catches handler e then h st' else (Raise e, st')
    end.

(** [os.path.exists(p)] *)
Definition os_path_exists (p : string) : M P bool :=
  fun st => (Return (path_exists P p (sys st)), st).

(** The state after a [Popen] call: the platform has moved on and the
    call is appended to the log. *)
Definition after_call (st : State P) (sys' : Sys P) (cmd : list pyval)
           (cwd : option string) : State P :=
  {| sys := sys';
     popen_calls := (popen_calls st
                     ++ [{| inv_cmd := cmd; inv_cwd := cwd |}])%list |}.

(** [pipes = subprocess.Popen(cmd, cwd=cwd, ...)] then
    [pipes.communicate()] and [pipes.returncode]. *)
Definition subprocess_Popen (cmd : list pyval) (cwd : option string)
  : M P (Z * string * string) :=
  fun st =>
    let (outcome, sys') := popen_communicate P cmd cwd (sys st) in
    let st' := after_call st sys' cmd cwd in
    match outcome with
    | Exited rc out err => (Return (rc, out, err), st')
    | LaunchFailed e => (Raise e, st')
    end.

(** [assert isinstance(v, list)], giving the items of the list. *)
Definition assert_isinstance_list (v : pyval) : M P (list pyval) :=
  match v with
  | PList items => ret items
  | _ => raise RaiseAssertion
  end.

End Computations.

Notation "x <- m ;; k" := (bind m (fun x => k))
  (at level 61, m at next level, right associativity).
Notation "' pat <- m ;; k" := (bind m (fun x => match x with pat => k end))
  (at level 61, pat pattern, m at next level, right associativity).

(** [not v] for a value that is a [str]. *)
Definition falsy (s : string) : bool := Str.is_empty s.

(** ** [class Repo] ([gitmeta/repo.py]) *)

Module Repo.

(** The attributes [__init__] sets. *)
Record instance : Type := {
  working_dir : string;
  git_dir : string
}.

(** [_get_git_meta_bin()] *)
Definition _get_git_meta_bin (_ : unit) : string := "git-meta".

(** The expression [Repo._get_git_meta_bin], without a call: the function
    object itself. *)
Definition _get_git_meta_bin_object : pyval := PFunc "Repo._get_git_meta_bin".

Section Methods.
Context {P : Platform}.

(** [cmd = [Repo._get_git_meta_bin]; cmd.extend(args)], then [Popen] and
    [communicate]; [stdout.strip()] when [0 == pipes.returncode], otherwise
    [GitMetaCommandException(pipes.returncode, args, stdout, stderr)]. *)
Definition _execute_git_meta_cmd (args : list pyval) (cwd : option string)
  : M P string :=
  let cmd := ([_get_git_meta_bin_object] ++ args)%list in
  '(returncode, stdout, stderr) <- subprocess_Popen cmd cwd ;;
  if 0 =? returncode then ret (Str.strip stdout)
  else raise (RaiseCommand returncode args stdout stderr).

Definition _root (cwd : option string) : M P string :=
  _execute_git_meta_cmd [PStr "root"] cwd.

Definition help (cwd : option string) : M P string :=
  _execute_git_meta_cmd [PStr "help"] cwd.

Definition version (cwd : option string) : M P string :=
  _execute_git_meta_cmd [PStr "version"] cwd.

(** [None] is the value of the [except GitMetaCommandException] branch. *)
Definition get_working_dir (clone_dir : string) : M P (option string) :=
  found <- os_path_exists clone_dir ;;
  if negb found then raise (RaiseNoSuchPath ("Could not read " ++ clone_dir))
  else
    try_except (r <- _root (Some clone_dir) ;; ret (Some r))
               GitMetaCommandException
               (ret None).

(** [if not working_dir] holds for [None] and for the empty [str]. *)
Definition __init__ (clone_dir : string) : M P instance :=
  wd <- get_working_dir clone_dir ;;
  match wd with
  | None => raise (RaiseMissingClone clone_dir)
  | Some working_dir =>
      if falsy working_dir then raise (RaiseMissingClone clone_dir)
      else ret {| working_dir := working_dir;
                  git_dir := Path.join working_dir [".git"] |}
  end.

(** [cmd = ['open']; cmd.extend(submodules)]; the result of the execute
    operation is dropped. *)
Definition open (self : instance) (submodules : pyval) : M P unit :=
  items <- assert_isinstance_list submodules ;;
  let cmd := ([PStr "open"] ++ items)%list in
  _ <- _execute_git_meta_cmd cmd (Some (working_dir self)) ;;
  ret tt.

(** [cmd = ['checkout']; cmd.extend(params)]. *)
Definition checkout (self : instance) (params : pyval) : M P unit :=
  items <- assert_isinstance_list params ;;
  let cmd := ([PStr "checkout"] ++ items)%list in
  _ <- _execute_git_meta_cmd cmd (Some (working_dir self)) ;;
  ret tt.

(** [os.path.exists(os.path.join(self.working_dir, submodule, '.git'))] *)
Definition is_open (self : instance) (submodule : string) : M P bool :=
  os_path_exists (Path.join (working_dir self) [submodule; ".git"]).

End Methods.

End Repo.

(** ** Concrete platforms *)

(** Line feed. *)
Definition LF : string := String (ascii_of_nat 10) EmptyString.

(** A stub runner: [dirs] are the paths that exist (a path names the same
    file whatever the number of separators between its components), [tool]
    answers for the external tool from the arguments after the executable and
    the working directory; the platform state counts the children run. *)
Definition stub (dirs : list string)
           (tool : list pyval -> option string -> completed) : Platform :=
  {| Sys := nat;
     path_exists := fun p _ =>
       existsb (fun d => String.eqb (Path.squeeze p) (Path.squeeze d)) dirs;
     popen_communicate := fun cmd cwd n => (tool (tl cmd) cwd, S n) |}.

(** The state of a fresh interpreter: nothing has been spawned yet. *)
Definition start (P : Platform) (s : Sys P) : State P :=
  {| sys := s; popen_calls := [] |}.

(** [Popen] as the interpreter has it: a command vector with an element that
    is not a [str] is refused with [TypeError] and no child is run. *)
Definition is_str (v : pyval) : bool :=
  match v with PStr _ => true | _ => false end.

Definition typed_popen (P : Platform) : Platform :=
  {| Sys := Sys P;
     path_exists := path_exists P;
     popen_communicate := fun cmd cwd s =>
       if forallb is_str cmd then popen_communicate P cmd cwd s
       else (LaunchFailed
               (RaiseBuiltin TypeError
                  "expected str, bytes or os.PathLike object"), s) |}.

(** The external tool of the scenarios: in [/tmp/x] every subcommand fails
    with exit code 1; [root] prints nothing but blanks in [/blank] and the
    root with blanks around it anywhere else; [help] and [version] print one
    line; opening [missing] and checking out [nowhere] fail; anything else
    succeeds silently. *)
Definition scenario_tool (args : list pyval) (cwd : option string) : completed :=
  match cwd, args with
  | Some "/tmp/x", _ => Exited 1 "" "not a clone"
  | Some "/blank", [PStr "root"] => Exited 0 (" " ++ LF) ""
  | _, [PStr "root"] => Exited 0 ("  /some/path" ++ LF) ""
  | _, [PStr "help"] => Exited 0 ("usage: ..." ++ LF) ""
  | _, [PStr "version"] => Exited 0 ("git-meta 1.0" ++ LF) ""
  | _, [PStr "open"; PStr "missing"] => Exited 3 "" "no such submodule"
  | _, [PStr "checkout"; PStr "nowhere"] => Exited 4 "" "no such branch"
  | _, _ => Exited 0 "" ""
  end.

Definition scenario : Platform :=
  stub ["/tmp/x"; "/blank"; "/work/clone"; "/some/path/sub/.git"; "/other/.git"]
       scenario_tool.

Definition scenario_start : State scenario := start scenario 0%nat.

(** The clone the scenario's [root] resolves to. *)
Definition some_path : Repo.instance :=
  {| Repo.working_dir := "/some/path"; Repo.git_dir := "/some/path/.git" |}.

(** The scenario under [Popen] as the interpreter has it. *)
Definition typed_scenario_start : State (typed_popen scenario) :=
  start (typed_popen scenario) 0%nat.

(** The root probe as [get_working_dir] and [__init__] run it. *)
Definition root_cmd : list pyval := [Repo._get_git_meta_bin_object; PStr "root"].

(** * Properties *)

(** ** Stripping *)

Module StrFacts.
Import Str.

Lemma is_empty_true (s : string) : is_empty s = true -> s = "".
Proof. destruct s; simpl; congruence. Qed.

Lemma lstrip_split (s : string) :
  exists l, s = l ++ lstrip s /\ all_space l = true.
Proof.
  induction s as [|c s IH]; simpl.
  - exists ""; auto.
  - destruct (isspace c) eqn:Hc.
    + destruct IH as (l & Hs & Hl).
      exists (String c l); simpl; rewrite Hc, Hl; split; [congruence | reflexivity].
    + exists ""; auto.
Qed.

Lemma lstrip_first (s : string) : is_space_opt (first (lstrip s)) = false.
Proof.
  induction s as [|c s IH]; simpl; auto.
  destruct (isspace c) eqn:Hc; simpl; auto.
Qed.

Lemma rstrip_split (s : string) :
  exists r, s = rstrip s ++ r /\ all_space r = true.
Proof.
  induction s as [|c s IH]; simpl.
  - exists ""; auto.
  - destruct IH as (r & Hs & Hr).
    destruct (isspace c) eqn:Hc; simpl.
    + destruct (is_empty (rstrip s)) eqn:He; simpl.
      * apply is_empty_true in He. rewrite He in Hs; simpl in Hs.
        exists (String c r); simpl; rewrite Hc, Hr; split; [congruence | reflexivity].
      * exists r; split; congruence.
    + exists r; split; congruence.
Qed.

Lemma rstrip_last (s : string) : is_space_opt (last (rstrip s)) = false.
Proof.
  induction s as [|c s IH]; simpl; auto.
  destruct (isspace c) eqn:Hc; simpl.
  - destruct (rstrip s) eqn:Hr; simpl in *; auto.
  - destruct (rstrip s) eqn:Hr; simpl in *; auto.
Qed.

Lemma rstrip_first (s : string) :
  is_space_opt (first s) = false -> is_space_opt (first (rstrip s)) = false.
Proof.
  destruct s as [|c s]; simpl; auto.
  intros Hc; rewrite Hc; simpl; auto.
Qed.

Lemma strip_is_trim (s : string) : is_trim_of s (strip s).
Proof.
  unfold is_trim_of, strip.
  destruct (lstrip_split s) as (l & Hs & Hl).
  destruct (rstrip_split (lstrip s)) as (r & Hm & Hr).
  exists l, r; repeat split; auto.
  - rewrite <- Hm; exact Hs.
  - apply rstrip_first, lstrip_first.
  - apply rstrip_last.
Qed.

Lemma lstrip_skip (l s : string) :
  all_space l = true -> lstrip (l ++ s) = lstrip s.
Proof.
  induction l as [|c l IH]; simpl; auto.
  intros H; apply andb_prop in H as [Hc Hl]; rewrite Hc; auto.
Qed.

Lemma lstrip_all_space (r : string) : all_space r = true -> lstrip r = "".
Proof.
  induction r as [|c r IH]; simpl; auto.
  intros H; apply andb_prop in H as [Hc Hr]; rewrite Hc; auto.
Qed.

Lemma lstrip_fixed (s : string) :
  is_space_opt (first s) = false -> lstrip s = s.
Proof. destruct s as [|c s]; simpl; auto. intros ->; auto. Qed.

Lemma rstrip_all_space (r : string) : all_space r = true -> rstrip r = "".
Proof.
  induction r as [|c r IH]; simpl; auto.
  intros H; apply andb_prop in H as [Hc Hr]; rewrite Hc, (IH Hr); auto.
Qed.

Lemma rstrip_skip (t r : string) :
  all_space r = true -> rstrip (t ++ r) = rstrip t.
Proof.
  intros Hr; induction t as [|c t IH]; simpl.
  - apply rstrip_all_space; auto.
  - rewrite IH; auto.
Qed.

Lemma rstrip_fixed (t : string) :
  is_space_opt (last t) = false -> rstrip t = t.
Proof.
  induction t as [|c t IH]; simpl; auto.
  destruct t as [|d t]; simpl in *.
  - intros ->; auto.
  - intros H. specialize (IH H). rewrite IH; simpl.
    rewrite andb_false_r; auto.
Qed.

(** The decomposition pins the result: [strip] is the only trim. *)
Lemma is_trim_unique (s t : string) : is_trim_of s t -> t = strip s.
Proof.
  intros (l & r & Hs & Hl & Hr & Hf & Hla); subst s; unfold strip.
  rewrite lstrip_skip by auto.
  destruct t as [|c t].
  - simpl. rewrite lstrip_all_space by auto; auto.
  - rewrite lstrip_fixed.
    + rewrite rstrip_skip by auto. symmetry; apply rstrip_fixed; auto.
    + simpl in *; auto.
Qed.

End StrFacts.

(** ** The low-level execute operation *)

Section ExecuteFacts.
Context {P : Platform}.
Implicit Types (st : State P) (args : list pyval) (cwd : option string).

(** The command vector [_execute_git_meta_cmd] hands to [Popen]. *)
Lemma execute_exited args cwd st rc out err sys' :
  popen_communicate P (Repo._get_git_meta_bin_object :: args) cwd (sys st)
    = (Exited rc out err, sys') ->
  Repo._execute_git_meta_cmd args cwd st
    = (if 0 =? rc then Return (Str.strip out)
       else Raise (RaiseCommand rc args out err),
       after_call st sys' (Repo._get_git_meta_bin_object :: args) cwd).
Proof.
  intros H.
  unfold Repo._execute_git_meta_cmd, bind, subprocess_Popen; simpl.
  rewrite H. destruct rc; reflexivity.
Qed.

Lemma execute_launch_failed args cwd st e sys' :
  popen_communicate P (Repo._get_git_meta_bin_object :: args) cwd (sys st)
    = (LaunchFailed e, sys') ->
  Repo._execute_git_meta_cmd args cwd st
    = (Raise e, after_call st sys' (Repo._get_git_meta_bin_object :: args) cwd).
Proof.
  intros H.
  unfold Repo._execute_git_meta_cmd, bind, subprocess_Popen; simpl.
  rewrite H. reflexivity.
Qed.

(** Whatever the child does, exactly one [Popen] call is logged. *)
Lemma execute_logs args cwd st :
  popen_calls (snd (Repo._execute_git_meta_cmd args cwd st))
  = (popen_calls st
     ++ [{| inv_cmd := Repo._get_git_meta_bin_object :: args;
            inv_cwd := cwd |}])%list.
Proof.
  destruct (popen_communicate P (Repo._get_git_meta_bin_object :: args)
                              cwd (sys st)) as [[rc out err|e] sys'] eqn:H.
  - rewrite (execute_exited _ _ _ _ _ _ _ H). reflexivity.
  - rewrite (execute_launch_failed _ _ _ _ _ H). reflexivity.
Qed.

(** A successful construction went through a non-empty probe answer. *)
Lemma init_returns (d : string) st self st' :
    Repo.__init__ d st = (Return self, st') ->
    exists wd,
      Repo.get_working_dir d st = (Return (Some wd), st') /\
      Str.is_empty wd = false /\
      self = {| Repo.working_dir := wd;
                Repo.git_dir := Path.join wd [".git"] |}.
Proof.
  intros H.
  unfold Repo.__init__, bind in H.
  destruct (Repo.get_working_dir d st) as [[[wd|]|e] st1]; try discriminate.
  unfold falsy in H. destruct (Str.is_empty wd) eqn:He; try discriminate.
  unfold ret in H. inversion H; subst. exists wd; auto.
Qed.

End ExecuteFacts.

(** [Popen] as the interpreter has it refuses the command vector: each
    call of the execute operation ends in [TypeError] and runs no child. *)
Lemma execute_refused_by_typed_popen (P : Platform) (args : list pyval)
      (cwd : option string) (st : State (typed_popen P)) :
  exists msg,
    Repo._execute_git_meta_cmd args cwd st
    = (Raise (RaiseBuiltin TypeError msg),
       after_call st (sys st) (Repo._get_git_meta_bin_object :: args) cwd).
Proof.
  eexists. apply execute_launch_failed. reflexivity.
Qed.

(** C1 (the code departs from the claim).  The command vector handed to
    [Popen] by the execute operation is the caller's [args], in order, behind
    a first element that is the function object [Repo._get_git_meta_bin]
    itself, which is not the name ['git-meta'] that calling it returns. *)
Theorem C1_command_vector_head_is_function_object :
  forall (P : Platform) (args : list pyval) (cwd : option string)
         (st : State P),
    popen_calls (snd (Repo._execute_git_meta_cmd args cwd st))
    = (popen_calls st
       ++ [{| inv_cmd := PFunc "Repo._get_git_meta_bin" :: args;
              inv_cwd := cwd |}])%list
    /\ PFunc "Repo._get_git_meta_bin" <> PStr (Repo._get_git_meta_bin tt).
Proof.
  intros P args cwd st; split.
  - apply execute_logs.
  - discriminate.
Qed.

(** ** Resolving the working directory *)

(** C2.  When the candidate directory exists and the root probe raises the
    external-command failure, [get_working_dir] returns [None] and
    construction raises [MissingGitMetaCloneException] carrying the candidate
    directory, which is not an external-command failure. *)
Theorem C2_probe_failure_becomes_missing_clone :
  forall (P : Platform) (d : string) (st st' : State P) (e : exn),
    path_exists P d (sys st) = true ->
    Repo._root (Some d) st = (Raise e, st') ->
    catches GitMetaCommandException e = true ->
    Repo.get_working_dir d st = (Return None, st') /\
    Repo.__init__ d st = (Raise (RaiseMissingClone d), st') /\
    catches GitMetaCommandException (RaiseMissingClone d) = false.
Proof.
  intros P d st st' e Hd Hroot Hcatch.
  assert (Hg : Repo.get_working_dir d st = (Return None, st')).
  { unfold Repo.get_working_dir, bind, os_path_exists.
    rewrite Hd; simpl. unfold try_except, bind.
    rewrite Hroot, Hcatch. reflexivity. }
  repeat split; auto.
  unfold Repo.__init__, bind. rewrite Hg. reflexivity.
Qed.

Lemma C2_probe_failure_witness :
  path_exists scenario "/tmp/x" (sys scenario_start) = true /\
  Repo.get_working_dir "/tmp/x" scenario_start
  = (Return None,
     after_call scenario_start 1%nat
                [Repo._get_git_meta_bin_object; PStr "root"] (Some "/tmp/x")) /\
  Repo.__init__ "/tmp/x" scenario_start
  = (Raise (RaiseMissingClone "/tmp/x"),
     after_call scenario_start 1%nat
                [Repo._get_git_meta_bin_object; PStr "root"] (Some "/tmp/x")) /\
  catches GitMetaCommandException (RaiseMissingClone "/tmp/x") = false.
Proof.
  split; [reflexivity|].
  apply (C2_probe_failure_becomes_missing_clone
           scenario "/tmp/x" scenario_start _
           (RaiseCommand 1 [PStr "root"] "" "not a clone"));
    reflexivity.
Defined.

(** C3.  For a candidate directory that does not exist, [get_working_dir]
    raises [NoSuchPathException] and construction raises the very same
    exception; the state is left as it was, so no [Popen] call was made. *)
Theorem C3_missing_directory_raises_before_spawning :
  forall (P : Platform) (d : string) (st : State P),
    path_exists P d (sys st) = false ->
    Repo.get_working_dir d st
    = (Raise (RaiseNoSuchPath ("Could not read " ++ d)), st) /\
    Repo.__init__ d st
    = (Raise (RaiseNoSuchPath ("Could not read " ++ d)), st) /\
    popen_calls (snd (Repo.__init__ d st)) = popen_calls st.
Proof.
  intros P d st Hd.
  assert (Hg : Repo.get_working_dir d st
               = (Raise (RaiseNoSuchPath ("Could not read " ++ d)), st)).
  { unfold Repo.get_working_dir, bind, os_path_exists. rewrite Hd. reflexivity. }
  assert (Hi : Repo.__init__ d st
               = (Raise (RaiseNoSuchPath ("Could not read " ++ d)), st)).
  { unfold Repo.__init__, bind. rewrite Hg. reflexivity. }
  repeat split; auto. rewrite Hi. reflexivity.
Qed.

Lemma C3_missing_directory_witness :
  path_exists scenario "/nope" (sys scenario_start) = false /\
  Repo.get_working_dir "/nope" scenario_start
  = (Raise (RaiseNoSuchPath "Could not read /nope"), scenario_start) /\
  Repo.__init__ "/nope" scenario_start
  = (Raise (RaiseNoSuchPath "Could not read /nope"), scenario_start) /\
  popen_calls (snd (Repo.__init__ "/nope" scenario_start)) = [].
Proof.
  split; [reflexivity|].
  apply (C3_missing_directory_raises_before_spawning
           scenario "/nope" scenario_start).
  reflexivity.
Defined.

(** ** Exit codes *)

(** C4.  When the child exits with code 0 the execute operation returns the
    captured stdout stripped: stdout is the result between a leading and a
    trailing run of whitespace, and the result neither starts nor ends with
    whitespace, so nothing inside it is altered.  [help] and [version]
    return it as it is, and a probe that prints ["  /some/path\n"] resolves
    to ["/some/path"]. *)
Theorem C4_exit_zero_returns_stripped_stdout :
  forall (P : Platform),
    (forall args cwd (st : State P) out err sys',
        popen_communicate P (Repo._get_git_meta_bin_object :: args) cwd (sys st)
        = (Exited 0 out err, sys') ->
        fst (Repo._execute_git_meta_cmd args cwd st) = Return (Str.strip out) /\
        Str.is_trim_of out (Str.strip out)) /\
    (forall cwd (st : State P) out err sys',
        popen_communicate P [Repo._get_git_meta_bin_object; PStr "help"]
                          cwd (sys st)
        = (Exited 0 out err, sys') ->
        fst (Repo.help cwd st) = Return (Str.strip out)) /\
    (forall cwd (st : State P) out err sys',
        popen_communicate P [Repo._get_git_meta_bin_object; PStr "version"]
                          cwd (sys st)
        = (Exited 0 out err, sys') ->
        fst (Repo.version cwd st) = Return (Str.strip out)) /\
    (forall d (st : State P) err sys',
        path_exists P d (sys st) = true ->
        popen_communicate P [Repo._get_git_meta_bin_object; PStr "root"]
                          (Some d) (sys st)
        = (Exited 0 ("  /some/path" ++ LF) err, sys') ->
        fst (Repo.get_working_dir d st) = Return (Some "/some/path") /\
        exists self,
          fst (Repo.__init__ d st) = Return self /\
          Repo.working_dir self = "/some/path").
Proof.
  intros P. split; [|split; [|split]].
  - intros args cwd st out err sys' H. split.
    + rewrite (execute_exited _ _ _ _ _ _ _ H). reflexivity.
    + apply StrFacts.strip_is_trim.
  - intros cwd st out err sys' H. unfold Repo.help.
    rewrite (execute_exited _ _ _ _ _ _ _ H). reflexivity.
  - intros cwd st out err sys' H. unfold Repo.version.
    rewrite (execute_exited _ _ _ _ _ _ _ H). reflexivity.
  - intros d st err sys' Hd Hrun.
    assert (Hg : Repo.get_working_dir d st
                 = (Return (Some "/some/path"),
                    after_call st sys'
                      [Repo._get_git_meta_bin_object; PStr "root"] (Some d))).
    { unfold Repo.get_working_dir, bind, os_path_exists, try_except,
        Repo._root.
      rewrite Hd; simpl. unfold bind.
      rewrite (execute_exited _ _ _ _ _ _ _ Hrun). reflexivity. }
    split; [rewrite Hg; reflexivity|].
    eexists. unfold Repo.__init__, bind. rewrite Hg; simpl.
    split; reflexivity.
Qed.

Lemma C4_exit_zero_witness :
  fst (Repo._execute_git_meta_cmd [PStr "root"] (Some "/work/clone")
                                  scenario_start)
  = Return "/some/path" /\
  Str.is_trim_of ("  /some/path" ++ LF) "/some/path" /\
  fst (Repo.help None scenario_start) = Return "usage: ..." /\
  fst (Repo.version None scenario_start) = Return "git-meta 1.0" /\
  fst (Repo.get_working_dir "/work/clone" scenario_start)
  = Return (Some "/some/path").
Proof.
  destruct (C4_exit_zero_returns_stripped_stdout scenario)
    as (Hexec & Hhelp & Hversion & Hprobe).
  destruct (Hexec [PStr "root"] (Some "/work/clone") scenario_start
                  ("  /some/path" ++ LF) "" 1%nat eq_refl) as [He Ht].
  destruct (Hprobe "/work/clone" scenario_start "" 1%nat eq_refl eq_refl)
    as [Hp _].
  split; [exact He|].
  split; [exact Ht|].
  split; [exact (Hhelp None scenario_start ("usage: ..." ++ LF) "" 1%nat
                       eq_refl)|].
  split; [exact (Hversion None scenario_start ("git-meta 1.0" ++ LF) ""
                          1%nat eq_refl)|].
  exact Hp.
Defined.

(** C5.  When the child exits with a code other than 0 the execute
    operation raises [GitMetaCommandException] holding that code, the [args]
    it was called with and both captured streams in full; [help], [version],
    [open] and [checkout] hand that exception on to their caller. *)
Theorem C5_nonzero_exit_raises_command_exception :
  forall (P : Platform) (rc : Z) (out err : string),
    rc <> 0 ->
    (forall args cwd (st : State P) sys',
        popen_communicate P (Repo._get_git_meta_bin_object :: args) cwd (sys st)
        = (Exited rc out err, sys') ->
        Repo._execute_git_meta_cmd args cwd st
        = (Raise (RaiseCommand rc args out err),
           after_call st sys' (Repo._get_git_meta_bin_object :: args) cwd)) /\
    (forall cwd (st : State P) sys',
        popen_communicate P [Repo._get_git_meta_bin_object; PStr "help"]
                          cwd (sys st)
        = (Exited rc out err, sys') ->
        fst (Repo.help cwd st) = Raise (RaiseCommand rc [PStr "help"] out err)) /\
    (forall cwd (st : State P) sys',
        popen_communicate P [Repo._get_git_meta_bin_object; PStr "version"]
                          cwd (sys st)
        = (Exited rc out err, sys') ->
        fst (Repo.version cwd st)
        = Raise (RaiseCommand rc [PStr "version"] out err)) /\
    (forall self items (st : State P) sys',
        popen_communicate P
          (Repo._get_git_meta_bin_object :: PStr "open" :: items)
          (Some (Repo.working_dir self)) (sys st)
        = (Exited rc out err, sys') ->
        fst (Repo.open self (PList items) st)
        = Raise (RaiseCommand rc (PStr "open" :: items) out err)) /\
    (forall self items (st : State P) sys',
        popen_communicate P
          (Repo._get_git_meta_bin_object :: PStr "checkout" :: items)
          (Some (Repo.working_dir self)) (sys st)
        = (Exited rc out err, sys') ->
        fst (Repo.checkout self (PList items) st)
        = Raise (RaiseCommand rc (PStr "checkout" :: items) out err)).
Proof.
  intros P rc out err Hrc.
  assert (Hz : (0 =? rc) = false) by (apply Z.eqb_neq; lia).
  assert (Hexec : forall args cwd (st : State P) sys',
             popen_communicate P (Repo._get_git_meta_bin_object :: args)
                               cwd (sys st)
             = (Exited rc out err, sys') ->
             Repo._execute_git_meta_cmd args cwd st
             = (Raise (RaiseCommand rc args out err),
                after_call st sys' (Repo._get_git_meta_bin_object :: args) cwd)).
  { intros args cwd st sys' H.
    rewrite (execute_exited _ _ _ _ _ _ _ H), Hz. reflexivity. }
  split; [exact Hexec|].
  split; [|split; [|split]].
  - intros cwd st sys' H. unfold Repo.help. rewrite (Hexec _ _ _ _ H).
    reflexivity.
  - intros cwd st sys' H. unfold Repo.version. rewrite (Hexec _ _ _ _ H).
    reflexivity.
  - intros self items st sys' H. unfold Repo.open, bind; simpl.
    unfold ret at 1. rewrite (Hexec _ _ _ _ H). reflexivity.
  - intros self items st sys' H. unfold Repo.checkout, bind; simpl.
    unfold ret at 1. rewrite (Hexec _ _ _ _ H). reflexivity.
Qed.

Lemma C5_nonzero_exit_witness :
  Repo._execute_git_meta_cmd [PStr "root"] (Some "/tmp/x") scenario_start
  = (Raise (RaiseCommand 1 [PStr "root"] "" "not a clone"),
     after_call scenario_start 1%nat
                [Repo._get_git_meta_bin_object; PStr "root"] (Some "/tmp/x")) /\
  fst (Repo.help (Some "/tmp/x") scenario_start)
  = Raise (RaiseCommand 1 [PStr "help"] "" "not a clone") /\
  fst (Repo.version (Some "/tmp/x") scenario_start)
  = Raise (RaiseCommand 1 [PStr "version"] "" "not a clone") /\
  fst (Repo.open some_path (PList [PStr "missing"]) scenario_start)
  = Raise (RaiseCommand 3 [PStr "open"; PStr "missing"] ""
                        "no such submodule") /\
  fst (Repo.checkout some_path (PList [PStr "nowhere"]) scenario_start)
  = Raise (RaiseCommand 4 [PStr "checkout"; PStr "nowhere"] ""
                        "no such branch").
Proof.
  assert (H1 : 1 <> 0) by lia.
  assert (H3 : 3 <> 0) by lia.
  assert (H4 : 4 <> 0) by lia.
  destruct (C5_nonzero_exit_raises_command_exception
              scenario 1 "" "not a clone" H1) as (He & Hh & Hv & _).
  destruct (C5_nonzero_exit_raises_command_exception
              scenario 3 "" "no such submodule" H3) as (_ & _ & _ & Ho & _).
  destruct (C5_nonzero_exit_raises_command_exception
              scenario 4 "" "no such branch" H4) as (_ & _ & _ & _ & Hc).
  split; [exact (He [PStr "root"] (Some "/tmp/x") scenario_start 1%nat
                    eq_refl)|].
  split; [exact (Hh (Some "/tmp/x") scenario_start 1%nat eq_refl)|].
  split; [exact (Hv (Some "/tmp/x") scenario_start 1%nat eq_refl)|].
  split; [exact (Ho some_path [PStr "missing"] scenario_start 1%nat eq_refl)|].
  exact (Hc some_path [PStr "nowhere"] scenario_start 1%nat eq_refl).
Defined.

(** ** [open] and [checkout] *)

(** C6.  [open] and [checkout] given anything but a list fail their
    assertion and leave the state as it was, so no [Popen] call was made.
    Given the empty list they run [Popen] once, in the working directory,
    with the bare subcommand behind the executable slot, and what they give
    back is what that call decides: nothing when the child exits with code 0,
    the command failure for any other code, and what [Popen] raised when it
    raised; the state is the one [Popen] left, with the call logged.  A stub
    runner is thus asked for exactly [['open']] or [['checkout']] in the
    working directory. *)
Theorem C6_list_precondition :
  forall (P : Platform) (self : Repo.instance) (st : State P),
    (forall v,
        isinstance_list v = false ->
        Repo.open self v st = (Raise RaiseAssertion, st) /\
        Repo.checkout self v st = (Raise RaiseAssertion, st)) /\
    Repo.open self (PList []) st
    = match popen_communicate P [Repo._get_git_meta_bin_object; PStr "open"]
                              (Some (Repo.working_dir self)) (sys st) with
      | (Exited rc out err, sys') =>
          (if 0 =? rc then Return tt
           else Raise (RaiseCommand rc [PStr "open"] out err),
           after_call st sys' [Repo._get_git_meta_bin_object; PStr "open"]
                      (Some (Repo.working_dir self)))
      | (LaunchFailed e, sys') =>
          (Raise e,
           after_call st sys' [Repo._get_git_meta_bin_object; PStr "open"]
                      (Some (Repo.working_dir self)))
      end /\
    Repo.checkout self (PList []) st
    = match popen_communicate P
              [Repo._get_git_meta_bin_object; PStr "checkout"]
              (Some (Repo.working_dir self)) (sys st) with
      | (Exited rc out err, sys') =>
          (if 0 =? rc then Return tt
           else Raise (RaiseCommand rc [PStr "checkout"] out err),
           after_call st sys' [Repo._get_git_meta_bin_object; PStr "checkout"]
                      (Some (Repo.working_dir self)))
      | (LaunchFailed e, sys') =>
          (Raise e,
           after_call st sys' [Repo._get_git_meta_bin_object; PStr "checkout"]
                      (Some (Repo.working_dir self)))
      end /\
    (forall dirs tool (st0 : State (stub dirs tool)) rc out err,
        (tool [PStr "open"] (Some (Repo.working_dir self)) = Exited rc out err ->
         Repo.open self (PList []) st0
         = (if 0 =? rc then Return tt
            else Raise (RaiseCommand rc [PStr "open"] out err),
            after_call st0 (S (sys st0))
                       [Repo._get_git_meta_bin_object; PStr "open"]
                       (Some (Repo.working_dir self)))) /\
        (tool [PStr "checkout"] (Some (Repo.working_dir self))
         = Exited rc out err ->
         Repo.checkout self (PList []) st0
         = (if 0 =? rc then Return tt
            else Raise (RaiseCommand rc [PStr "checkout"] out err),
            after_call st0 (S (sys st0))
                       [Repo._get_git_meta_bin_object; PStr "checkout"]
                       (Some (Repo.working_dir self))))).
Proof.
  intros P self st.
  assert (Hrun : forall (Q : Platform) (s : State Q) sub,
             bind (Repo._execute_git_meta_cmd [PStr sub]
                     (Some (Repo.working_dir self)))
                  (fun _ => ret tt) s
             = match popen_communicate Q
                       [Repo._get_git_meta_bin_object; PStr sub]
                       (Some (Repo.working_dir self)) (sys s) with
               | (Exited rc out err, sys') =>
                   (if 0 =? rc then Return tt
                    else Raise (RaiseCommand rc [PStr sub] out err),
                    after_call s sys' [Repo._get_git_meta_bin_object; PStr sub]
                               (Some (Repo.working_dir self)))
               | (LaunchFailed e, sys') =>
                   (Raise e,
                    after_call s sys' [Repo._get_git_meta_bin_object; PStr sub]
                               (Some (Repo.working_dir self)))
               end).
  { intros Q s sub. unfold bind.
    destruct (popen_communicate Q [Repo._get_git_meta_bin_object; PStr sub]
                                (Some (Repo.working_dir self)) (sys s))
      as [[rc out err|e] sys'] eqn:H.
    - rewrite (execute_exited _ _ _ _ _ _ _ H). destruct rc; reflexivity.
    - rewrite (execute_launch_failed _ _ _ _ _ H). reflexivity. }
  split; [|split; [|split]].
  - intros v Hv. destruct v; try discriminate; split; reflexivity.
  - exact (Hrun P st "open").
  - exact (Hrun P st "checkout").
  - intros dirs tool st0 rc out err; split; intros Htool.
    + change (Repo.open self (PList []) st0)
        with (bind (Repo._execute_git_meta_cmd [PStr "open"]
                      (Some (Repo.working_dir self)))
                   (fun _ => ret tt) st0).
      rewrite (Hrun (stub dirs tool) st0 "open"); simpl.
      rewrite Htool. reflexivity.
    + change (Repo.checkout self (PList []) st0)
        with (bind (Repo._execute_git_meta_cmd [PStr "checkout"]
                      (Some (Repo.working_dir self)))
                   (fun _ => ret tt) st0).
      rewrite (Hrun (stub dirs tool) st0 "checkout"); simpl.
      rewrite Htool. reflexivity.
Qed.

Lemma C6_list_precondition_witness :
  Repo.open some_path (PStr "not-a-list") scenario_start
  = (Raise RaiseAssertion, scenario_start) /\
  Repo.checkout some_path (PStr "not-a-list") scenario_start
  = (Raise RaiseAssertion, scenario_start) /\
  Repo.open some_path (PList []) scenario_start
  = (Return tt,
     after_call scenario_start 1%nat
                [Repo._get_git_meta_bin_object; PStr "open"]
                (Some "/some/path")) /\
  Repo.checkout some_path (PList []) scenario_start
  = (Return tt,
     after_call scenario_start 1%nat
                [Repo._get_git_meta_bin_object; PStr "checkout"]
                (Some "/some/path")).
Proof.
  destruct (C6_list_precondition scenario some_path scenario_start)
    as (Hassert & _ & _ & Hstub).
  destruct (Hassert (PStr "not-a-list") eq_refl) as [Ho Hc].
  destruct (Hstub _ scenario_tool scenario_start 0 "" "") as [Hopen Hcheckout].
  split; [exact Ho|].
  split; [exact Hc|].
  split; [exact (Hopen eq_refl)|].
  exact (Hcheckout eq_refl).
Defined.

(** ** Class hierarchy *)

(** C10.  [NoSuchPathException] lists [GitMetaException] and [OSError] as
    its bases, so a handler for either class catches it; the two other
    failures of the package list [GitMetaException] alone and no handler for
    [OSError] catches them. *)
Theorem C10_no_such_path_is_also_an_os_error :
  bases NoSuchPathException = [GitMetaException; OSError] /\
  issubclass NoSuchPathException GitMetaException = true /\
  issubclass NoSuchPathException OSError = true /\
  (forall message,
      catches GitMetaException (RaiseNoSuchPath message) = true /\
      catches OSError (RaiseNoSuchPath message) = true) /\
  bases MissingGitMetaCloneException = [GitMetaException] /\
  bases GitMetaCommandException = [GitMetaException] /\
  (forall d,
      catches GitMetaException (RaiseMissingClone d) = true /\
      catches OSError (RaiseMissingClone d) = false) /\
  (forall rc args out err,
      catches GitMetaException (RaiseCommand rc args out err) = true /\
      catches OSError (RaiseCommand rc args out err) = false).
Proof.
  repeat split.
Qed.

(** ** Joined paths *)

Module PathFacts.
Import Str Path.

Lemma append_assoc (a b c : string) : (a ++ b) ++ c = a ++ b ++ c.
Proof. induction a as [|x a IH]; simpl; congruence. Qed.

Lemma is_empty_app (x y : string) :
  is_empty x = false -> is_empty (x ++ y) = false.
Proof. destruct x; simpl; congruence. Qed.

Lemma startswith_sep_app (x y : string) :
  is_empty x = false -> startswith_sep (x ++ y) = startswith_sep x.
Proof. destruct x; simpl; [discriminate | reflexivity]. Qed.

(** After a path that ends with a separator one more separator changes
    nothing once runs are collapsed. *)
Lemma squeeze_sep_end (x y : string) :
  endswith_sep x = true -> squeeze (x ++ y) = squeeze (x ++ String "/" y).
Proof.
  induction x as [|c x IH]; [discriminate|].
  destruct x as [|d x].
  - unfold endswith_sep; simpl. intros Hc.
    apply Ascii.eqb_eq in Hc; subst c. reflexivity.
  - intros He.
    assert (He' : endswith_sep (String d x) = true) by exact He.
    specialize (IH He').
    change (String c (String d x) ++ y)
      with (String c (String d x ++ y)).
    change (String c (String d x) ++ String "/" y)
      with (String c (String d x ++ String "/" y)).
    cbn [squeeze].
    rewrite IH.
    rewrite !startswith_sep_app by reflexivity.
    reflexivity.
Qed.

(** For a working directory that is not empty and a relative submodule
    path, the joined path is [working_dir/submodule/.git] up to repeated
    separators. *)
Lemma join_relative (wd sub : string) :
  is_empty wd = false ->
  startswith_sep sub = false ->
  squeeze (join wd [sub; ".git"]) = squeeze (wd ++ "/" ++ sub ++ "/.git").
Proof.
  intros Hwd Hsub.
  unfold join; simpl. unfold join_step at 2. rewrite Hsub, Hwd; simpl.
  unfold join_step.
  change (startswith_sep ".git") with false; cbv iota.
  destruct (endswith_sep wd) eqn:Hw.
  - rewrite (is_empty_app wd sub Hwd); simpl.
    rewrite <- (squeeze_sep_end wd (sub ++ "/.git") Hw).
    destruct (endswith_sep (wd ++ sub)) eqn:Hp.
    + rewrite (squeeze_sep_end (wd ++ sub) ".git" Hp).
      rewrite append_assoc. reflexivity.
    + rewrite append_assoc. reflexivity.
  - rewrite (is_empty_app wd (String "/" sub) Hwd); simpl.
    destruct (endswith_sep (wd ++ String "/" sub)) eqn:Hp.
    + rewrite (squeeze_sep_end (wd ++ String "/" sub) ".git" Hp).
      rewrite append_assoc. reflexivity.
    + rewrite append_assoc. reflexivity.
Qed.

(** [git_dir] is [working_dir/.git] up to repeated separators. *)
Lemma join_git_dir (wd : string) :
  is_empty wd = false ->
  squeeze (join wd [".git"]) = squeeze (wd ++ "/.git").
Proof.
  intros Hwd. unfold join; simpl. unfold join_step.
  change (startswith_sep ".git") with false; cbv iota.
  rewrite Hwd; simpl.
  destruct (endswith_sep wd) eqn:Hw; [|reflexivity].
  apply squeeze_sep_end; exact Hw.
Qed.

(** An absolute submodule path replaces the working directory. *)
Lemma join_absolute (wd sub : string) :
  startswith_sep sub = true ->
  join wd [sub; ".git"] = join sub [".git"].
Proof.
  intros Hsub. unfold join; simpl. unfold join_step at 2.
  rewrite Hsub. reflexivity.
Qed.

End PathFacts.

(** ** Construction *)

(** What construction does once the directory exists and the probe exits
    with code 0. *)
Lemma init_on_exit_zero (P : Platform) (d : string) (st : State P)
      (out err : string) (sys' : Sys P) :
  path_exists P d (sys st) = true ->
  popen_communicate P [Repo._get_git_meta_bin_object; PStr "root"]
                    (Some d) (sys st)
  = (Exited 0 out err, sys') ->
  Repo.__init__ d st
  = (if Str.is_empty (Str.strip out) then Raise (RaiseMissingClone d)
     else Return {| Repo.working_dir := Str.strip out;
                    Repo.git_dir := Path.join (Str.strip out) [".git"] |},
     after_call st sys' [Repo._get_git_meta_bin_object; PStr "root"] (Some d)).
Proof.
  intros Hd Hp.
  unfold Repo.__init__, bind.
  unfold Repo.get_working_dir, bind, os_path_exists, try_except, Repo._root.
  rewrite Hd; simpl. unfold bind.
  rewrite (execute_exited _ _ _ _ _ _ _ Hp); simpl.
  unfold falsy. destruct (Str.is_empty (Str.strip out)); reflexivity.
Qed.

Lemma endswith_sep_app (x y : string) :
  Str.is_empty y = false -> Str.endswith_sep (x ++ y) = Str.endswith_sep y.
Proof.
  intros Hy. unfold Str.endswith_sep. f_equal.
  induction x as [|c x IH]; [reflexivity|].
  change (String c x ++ y) with (String c (x ++ y)).
  destruct (x ++ y) as [|c' r] eqn:Hxy.
  - destruct x; simpl in Hxy; [subst y|]; discriminate.
  - exact IH.
Qed.

(** With a working directory that does not end with a separator and a
    submodule path that neither starts nor ends with one, the joined path is
    [working_dir/submodule/.git] letter for letter. *)
Lemma join_relative_exact (wd sub : string) :
  Str.is_empty wd = false ->
  Str.endswith_sep wd = false ->
  Str.startswith_sep sub = false ->
  Str.is_empty sub = false ->
  Str.endswith_sep sub = false ->
  Path.join wd [sub; ".git"] = wd ++ "/" ++ sub ++ "/.git".
Proof.
  intros Hwd Hwe Hss Hse Hsub.
  unfold Path.join; simpl. unfold Path.join_step at 2.
  rewrite Hss, Hwd, Hwe; simpl.
  unfold Path.join_step.
  change (Str.startswith_sep ".git") with false; cbv iota.
  rewrite (PathFacts.is_empty_app wd (String "/" sub) Hwd).
  rewrite (endswith_sep_app wd (String "/" sub) eq_refl).
  assert (He : Str.endswith_sep (String "/" sub) = false).
  { rewrite <- Hsub. destruct sub; [discriminate Hse | reflexivity]. }
  rewrite He; simpl.
  rewrite PathFacts.append_assoc. reflexivity.
Qed.

(** C7.  For a constructed [Repo] and a submodule path relative to the root
    (one that does not start with a separator), [is_open] returns whether
    one path exists and leaves the state as it was, so no [Popen] call is
    made.  That path is [working_dir/submodule/.git] up to repeated
    separators: [is_open] is true exactly when [working_dir/submodule/.git]
    exists wherever repeated separators do not matter, and on any file
    system when the working directory does not end with a separator and the
    submodule path is not empty and does not end with one. *)
Theorem C7_is_open_checks_submodule_git :
  forall (P : Platform) (d : string) (st0 st1 st : State P)
         (self : Repo.instance) (sub : string),
    Repo.__init__ d st0 = (Return self, st1) ->
    Str.startswith_sep sub = false ->
    (exists p,
        Repo.is_open self sub st = (Return (path_exists P p (sys st)), st) /\
        Path.squeeze p
        = Path.squeeze (Repo.working_dir self ++ "/" ++ sub ++ "/.git")) /\
    ((forall p q s,
         Path.squeeze p = Path.squeeze q ->
         path_exists P p s = path_exists P q s) ->
     Repo.is_open self sub st
     = (Return (path_exists P (Repo.working_dir self ++ "/" ++ sub ++ "/.git")
                            (sys st)), st)) /\
    (Str.endswith_sep (Repo.working_dir self) = false ->
     Str.is_empty sub = false ->
     Str.endswith_sep sub = false ->
     Repo.is_open self sub st
     = (Return (path_exists P (Repo.working_dir self ++ "/" ++ sub ++ "/.git")
                            (sys st)), st)).
Proof.
  intros P d st0 st1 st self sub Hinit Hsub.
  destruct (init_returns _ _ _ _ Hinit) as (wd & _ & Hwd & ->); simpl.
  pose proof (PathFacts.join_relative wd sub Hwd Hsub) as Hj.
  split; [|split].
  - exists (Path.join wd [sub; ".git"]). split; [reflexivity | exact Hj].
  - intros Hfs.
    exact (f_equal (fun b : bool => (Return b, st)) (Hfs _ _ (sys st) Hj)).
  - intros Hwe Hse Hsube.
    exact (f_equal (fun p => (Return (path_exists P p (sys st)), st))
                   (join_relative_exact wd sub Hwd Hwe Hsub Hse Hsube)).
Qed.

Lemma C7_is_open_witness :
  Repo.__init__ "/work/clone" scenario_start
  = (Return some_path,
     after_call scenario_start 1%nat
                [Repo._get_git_meta_bin_object; PStr "root"]
                (Some "/work/clone")) /\
  Repo.is_open some_path "sub" scenario_start = (Return true, scenario_start) /\
  path_exists scenario "/some/path/sub/.git" (sys scenario_start) = true /\
  Repo.is_open some_path "closed" scenario_start
  = (Return false, scenario_start) /\
  path_exists scenario "/some/path/closed/.git" (sys scenario_start) = false /\
  Repo.is_open some_path "sub/" scenario_start = (Return true, scenario_start).
Proof.
  assert (Hinit : Repo.__init__ "/work/clone" scenario_start
                  = (Return some_path,
                     after_call scenario_start 1%nat
                                [Repo._get_git_meta_bin_object; PStr "root"]
                                (Some "/work/clone"))) by reflexivity.
  assert (Hfs : forall p q (s : Sys scenario),
             Path.squeeze p = Path.squeeze q ->
             path_exists scenario p s = path_exists scenario q s).
  { intros p q s H; simpl. rewrite H. reflexivity. }
  destruct (C7_is_open_checks_submodule_git
              scenario "/work/clone" scenario_start _ scenario_start
              some_path "sub" Hinit eq_refl) as (_ & _ & Hopen).
  destruct (C7_is_open_checks_submodule_git
              scenario "/work/clone" scenario_start _ scenario_start
              some_path "closed" Hinit eq_refl) as (_ & _ & Hclosed).
  destruct (C7_is_open_checks_submodule_git
              scenario "/work/clone" scenario_start _ scenario_start
              some_path "sub/" Hinit eq_refl) as (_ & Hslash & _).
  split; [exact Hinit|].
  split; [exact (Hopen eq_refl eq_refl eq_refl)|].
  split; [reflexivity|].
  split; [exact (Hclosed eq_refl eq_refl eq_refl)|].
  split; [reflexivity|].
  exact (Hslash Hfs).
Defined.

(** C8.  When the candidate directory always exists and the root probe
    always exits with code 0 printing the same text, construction gives the
    same outcome from any two states, in particular when repeated; when that
    text is not blank the outcome is a [Repo] whose [working_dir] is the
    stripped text and whose [git_dir] is [working_dir] joined with ['.git'],
    which is [working_dir/.git] up to repeated separators. *)
Theorem C8_construction_is_repeatable :
  forall (P : Platform) (d out : string),
    (forall s, path_exists P d s = true) ->
    (forall s, exists err s',
        popen_communicate P [Repo._get_git_meta_bin_object; PStr "root"]
                          (Some d) s
        = (Exited 0 out err, s')) ->
    (forall st1 st2 : State P,
        fst (Repo.__init__ d st1) = fst (Repo.__init__ d st2)) /\
    (forall st : State P,
        fst (Repo.__init__ d (snd (Repo.__init__ d st)))
        = fst (Repo.__init__ d st)) /\
    (Str.is_empty (Str.strip out) = false ->
     forall st : State P,
     exists self,
       fst (Repo.__init__ d st) = Return self /\
       Repo.working_dir self = Str.strip out /\
       Repo.git_dir self = Path.join (Repo.working_dir self) [".git"] /\
       Path.squeeze (Repo.git_dir self)
       = Path.squeeze (Repo.working_dir self ++ "/.git")).
Proof.
  intros P d out Hd Hp.
  assert (Hfix : forall st : State P,
             fst (Repo.__init__ d st)
             = if Str.is_empty (Str.strip out)
               then Raise (RaiseMissingClone d)
               else Return {| Repo.working_dir := Str.strip out;
                              Repo.git_dir :=
                                Path.join (Str.strip out) [".git"] |}).
  { intros st. destruct (Hp (sys st)) as (err & s' & Hrun).
    rewrite (init_on_exit_zero P d st out err s' (Hd _) Hrun). reflexivity. }
  split; [|split].
  - intros st1 st2. rewrite (Hfix st1), (Hfix st2). reflexivity.
  - intros st. rewrite !Hfix. reflexivity.
  - intros Hne st. rewrite Hfix, Hne. eexists.
    split; [reflexivity|]. split; [reflexivity|]. split; [reflexivity|].
    simpl. apply PathFacts.join_git_dir. exact Hne.
Qed.

Lemma C8_construction_witness :
  fst (Repo.__init__ "/work/clone"
         (snd (Repo.__init__ "/work/clone" scenario_start)))
  = fst (Repo.__init__ "/work/clone" scenario_start) /\
  exists self,
    fst (Repo.__init__ "/work/clone" scenario_start) = Return self /\
    Repo.working_dir self = "/some/path" /\
    Repo.git_dir self = "/some/path/.git".
Proof.
  assert (Hd : forall s : Sys scenario,
             path_exists scenario "/work/clone" s = true)
    by (intros s; reflexivity).
  assert (Hp : forall s : Sys scenario, exists err s',
               popen_communicate scenario
                 [Repo._get_git_meta_bin_object; PStr "root"]
                 (Some "/work/clone") s
               = (Exited 0 ("  /some/path" ++ LF) err, s'))
    by (intros s; exists "", (S s); reflexivity).
  destruct (C8_construction_is_repeatable
              scenario "/work/clone" ("  /some/path" ++ LF) Hd Hp)
    as (_ & Hagain & Hrepo).
  split; [exact (Hagain scenario_start)|].
  destruct (Hrepo eq_refl scenario_start) as (self & Hs & Hw & Hg & _).
  exists self. split; [exact Hs|]. split; [exact Hw|].
  rewrite Hg, Hw. reflexivity.
Defined.

(** C9.  When the directory exists and the probe exits with code 0 but its
    stdout strips to the empty string, construction raises
    [MissingGitMetaCloneException] for the candidate directory; and the
    [working_dir] of any [Repo] that construction returns is not empty. *)
Theorem C9_blank_probe_output_is_missing_clone :
  forall (P : Platform) (d : string) (st : State P),
    (forall out err sys',
        path_exists P d (sys st) = true ->
        popen_communicate P [Repo._get_git_meta_bin_object; PStr "root"]
                          (Some d) (sys st)
        = (Exited 0 out err, sys') ->
        Str.strip out = "" ->
        fst (Repo.__init__ d st) = Raise (RaiseMissingClone d)) /\
    (forall self st',
        Repo.__init__ d st = (Return self, st') ->
        Repo.working_dir self <> "").
Proof.
  intros P d st; split.
  - intros out err sys' Hd Hp Hblank.
    rewrite (init_on_exit_zero P d st out err sys' Hd Hp), Hblank.
    reflexivity.
  - intros self st' Hinit.
    destruct (init_returns _ _ _ _ Hinit) as (wd & _ & Hwd & ->); simpl.
    intros ->. discriminate Hwd.
Qed.

Lemma C9_blank_probe_witness :
  Str.strip (" " ++ LF) = "" /\
  fst (Repo.__init__ "/blank" scenario_start)
  = Raise (RaiseMissingClone "/blank") /\
  Repo.working_dir some_path <> "".
Proof.
  destruct (C9_blank_probe_output_is_missing_clone
              scenario "/blank" scenario_start) as [Hblank _].
  destruct (C9_blank_probe_output_is_missing_clone
              scenario "/work/clone" scenario_start) as [_ Hnonempty].
  split; [reflexivity|].
  split; [exact (Hblank (" " ++ LF) "" 1%nat eq_refl eq_refl eq_refl)|].
  exact (Hnonempty some_path _ eq_refl).
Defined.

(** * Further properties *)

(** ** More on stripping *)

Module StripMore.
Import Str.

Lemma append_empty_r (s : string) : s ++ "" = s.
Proof. induction s as [|c s IH]; simpl; congruence. Qed.

Lemma strip_idempotent (s : string) : strip (strip s) = strip s.
Proof.
  symmetry. apply StrFacts.is_trim_unique.
  destruct (StrFacts.strip_is_trim s) as (l & r & _ & _ & _ & Hf & Hl).
  exists "", "". rewrite append_empty_r. repeat split; auto.
Qed.

Lemma all_space_lstrip (s : string) : all_space (lstrip s) = all_space s.
Proof.
  induction s as [|c s IH]; simpl; auto.
  destruct (isspace c) eqn:Hc; simpl; auto. rewrite Hc. reflexivity.
Qed.

Lemma is_empty_rstrip (s : string) : is_empty (rstrip s) = all_space s.
Proof.
  induction s as [|c s IH]; simpl; auto.
  rewrite <- IH.
  destruct (isspace c), (is_empty (rstrip s)); reflexivity.
Qed.

(** The stripped text is empty exactly when the text is blank. *)
Lemma is_empty_strip (s : string) : is_empty (strip s) = all_space s.
Proof. unfold strip. rewrite is_empty_rstrip. apply all_space_lstrip. Qed.

Lemma strip_edges (s : string) :
  is_space_opt (first (strip s)) = false /\
  is_space_opt (last (strip s)) = false.
Proof.
  destruct (StrFacts.strip_is_trim s) as (l & r & _ & _ & _ & Hf & Hl); auto.
Qed.

End StripMore.

(** ** The whole of [get_working_dir] and [__init__] *)

Section Outcomes.
Context {P : Platform}.
Implicit Types (st : State P) (d : string).

(** Every path through [get_working_dir]. *)
Lemma get_working_dir_eq d st :
  Repo.get_working_dir d st
  = if path_exists P d (sys st) then
      match popen_communicate P root_cmd (Some d) (sys st) with
      | (Exited rc out err, sys') =>
          (if 0 =? rc then Return (Some (Str.strip out)) else Return None,
           after_call st sys' root_cmd (Some d))
      | (LaunchFailed e, sys') =>
          (if catches GitMetaCommandException e then Return None else Raise e,
           after_call st sys' root_cmd (Some d))
      end
    else (Raise (RaiseNoSuchPath ("Could not read " ++ d)), st).
Proof.
  unfold Repo.get_working_dir, bind, os_path_exists.
  destruct (path_exists P d (sys st)); simpl; [|reflexivity].
  unfold try_except, bind, Repo._root.
  destruct (popen_communicate P root_cmd (Some d) (sys st))
    as [[rc out err|e] sys'] eqn:H.
  - rewrite (execute_exited _ _ _ _ _ _ _ H).
    destruct rc; reflexivity.
  - rewrite (execute_launch_failed _ _ _ _ _ H).
    destruct (catches GitMetaCommandException e); reflexivity.
Qed.

(** Every path through [__init__]. *)
Lemma init_eq d st :
  Repo.__init__ d st
  = if path_exists P d (sys st) then
      match popen_communicate P root_cmd (Some d) (sys st) with
      | (Exited rc out err, sys') =>
          (if (0 =? rc) && negb (Str.all_space out)
           then Return {| Repo.working_dir := Str.strip out;
                          Repo.git_dir := Path.join (Str.strip out) [".git"] |}
           else Raise (RaiseMissingClone d),
           after_call st sys' root_cmd (Some d))
      | (LaunchFailed e, sys') =>
          (if catches GitMetaCommandException e
           then Raise (RaiseMissingClone d) else Raise e,
           after_call st sys' root_cmd (Some d))
      end
    else (Raise (RaiseNoSuchPath ("Could not read " ++ d)), st).
Proof.
  unfold Repo.__init__, bind. rewrite get_working_dir_eq.
  destruct (path_exists P d (sys st)); [|reflexivity].
  destruct (popen_communicate P root_cmd (Some d) (sys st))
    as [[rc out err|e] sys'].
  - destruct rc; simpl; try reflexivity.
    unfold falsy. rewrite StripMore.is_empty_strip.
    destruct (Str.all_space out); reflexivity.
  - destruct (catches GitMetaCommandException e); reflexivity.
Qed.

End Outcomes.

(** ** What a constructed [Repo] satisfies *)

(** X1.  Every [Repo] that construction returns has a [working_dir] that
    stripping leaves unchanged, with no whitespace at either end, and a
    [git_dir] that is [working_dir] joined with ['.git']. *)
Theorem X1_constructed_repo_is_trimmed :
  forall (P : Platform) (d : string) (st st' : State P) (self : Repo.instance),
    Repo.__init__ d st = (Return self, st') ->
    Str.strip (Repo.working_dir self) = Repo.working_dir self /\
    Str.is_space_opt (Str.first (Repo.working_dir self)) = false /\
    Str.is_space_opt (Str.last (Repo.working_dir self)) = false /\
    Repo.git_dir self = Path.join (Repo.working_dir self) [".git"].
Proof.
  intros P d st st' self H. rewrite init_eq in H.
  destruct (path_exists P d (sys st)); [|discriminate].
  destruct (popen_communicate P root_cmd (Some d) (sys st))
    as [[rc out err|e] sys'].
  - destruct ((0 =? rc) && negb (Str.all_space out)); [|discriminate].
    inversion H; subst; simpl.
    destruct (StripMore.strip_edges out) as [Hf Hl].
    split; [apply StripMore.strip_idempotent|]. auto.
  - destruct (catches GitMetaCommandException e); discriminate.
Qed.

Lemma X1_constructed_repo_witness :
  Repo.__init__ "/work/clone" scenario_start
  = (Return some_path,
     after_call scenario_start 1%nat root_cmd (Some "/work/clone")) /\
  Str.strip "/some/path" = "/some/path" /\
  Repo.git_dir some_path = Path.join "/some/path" [".git"].
Proof.
  assert (Hinit : Repo.__init__ "/work/clone" scenario_start
                  = (Return some_path,
                     after_call scenario_start 1%nat root_cmd
                                (Some "/work/clone"))) by reflexivity.
  destruct (X1_constructed_repo_is_trimmed
              scenario "/work/clone" scenario_start _ some_path Hinit)
    as (Hs & _ & _ & Hg).
  split; [exact Hinit|]. split; [exact Hs|]. exact Hg.
Defined.

(** X2.  Construction and [get_working_dir] make the same [Popen] calls: one
    call, the root probe in the candidate directory, when that directory
    exists, whatever the probe answers, and none when it does not exist.
    There is no second attempt. *)
Theorem X2_construction_probes_at_most_once :
  forall (P : Platform) (d : string) (st : State P),
    popen_calls (snd (Repo.get_working_dir d st))
    = popen_calls (snd (Repo.__init__ d st)) /\
    popen_calls (snd (Repo.__init__ d st))
    = if path_exists P d (sys st)
      then (popen_calls st
            ++ [{| inv_cmd := root_cmd; inv_cwd := Some d |}])%list
      else popen_calls st.
Proof.
  intros P d st. rewrite init_eq, get_working_dir_eq.
  destruct (path_exists P d (sys st)); [|split; reflexivity].
  destruct (popen_communicate P root_cmd (Some d) (sys st))
    as [[rc out err|e] sys']; split; reflexivity.
Qed.

(** X3.  [open] and [checkout] given a list make exactly one [Popen] call,
    in the working directory, whose arguments after the executable slot are
    the subcommand followed by the items of the list as they are and in
    order; when the child exits with code 0 they return nothing, whatever the
    child printed. *)
Theorem X3_open_checkout_pass_items_in_order :
  forall (P : Platform) (self : Repo.instance) (items : list pyval)
         (st : State P),
    popen_calls (snd (Repo.open self (PList items) st))
    = (popen_calls st
       ++ [{| inv_cmd := Repo._get_git_meta_bin_object :: PStr "open" :: items;
              inv_cwd := Some (Repo.working_dir self) |}])%list /\
    popen_calls (snd (Repo.checkout self (PList items) st))
    = (popen_calls st
       ++ [{| inv_cmd :=
                Repo._get_git_meta_bin_object :: PStr "checkout" :: items;
              inv_cwd := Some (Repo.working_dir self) |}])%list /\
    (forall out err sys',
        popen_communicate P
          (Repo._get_git_meta_bin_object :: PStr "open" :: items)
          (Some (Repo.working_dir self)) (sys st)
        = (Exited 0 out err, sys') ->
        fst (Repo.open self (PList items) st) = Return tt) /\
    (forall out err sys',
        popen_communicate P
          (Repo._get_git_meta_bin_object :: PStr "checkout" :: items)
          (Some (Repo.working_dir self)) (sys st)
        = (Exited 0 out err, sys') ->
        fst (Repo.checkout self (PList items) st) = Return tt).
Proof.
  intros P self items st.
  assert (Hlog : forall sub,
             popen_calls
               (snd (bind (Repo._execute_git_meta_cmd (PStr sub :: items)
                             (Some (Repo.working_dir self)))
                          (fun _ => ret tt) st))
             = (popen_calls st
                ++ [{| inv_cmd :=
                         Repo._get_git_meta_bin_object :: PStr sub :: items;
                       inv_cwd := Some (Repo.working_dir self) |}])%list).
  { intros sub. unfold bind.
    pose proof (execute_logs (PStr sub :: items)
                             (Some (Repo.working_dir self)) st) as L.
    destruct (Repo._execute_git_meta_cmd (PStr sub :: items)
                (Some (Repo.working_dir self)) st) as [[r|e] st1];
      exact L. }
  split; [apply (Hlog "open")|].
  split; [apply (Hlog "checkout")|].
  split.
  - intros out err sys' H. unfold Repo.open, bind; simpl. unfold ret at 1.
    rewrite (execute_exited _ _ _ _ _ _ _ H). reflexivity.
  - intros out err sys' H. unfold Repo.checkout, bind; simpl. unfold ret at 1.
    rewrite (execute_exited _ _ _ _ _ _ _ H). reflexivity.
Qed.

Lemma X3_open_checkout_witness :
  popen_calls
    (snd (Repo.open some_path (PList [PStr "a/b"; PStr "c"]) scenario_start))
  = [{| inv_cmd := [Repo._get_git_meta_bin_object; PStr "open"; PStr "a/b";
                    PStr "c"];
        inv_cwd := Some "/some/path" |}] /\
  fst (Repo.open some_path (PList [PStr "a/b"; PStr "c"]) scenario_start)
  = Return tt /\
  fst (Repo.checkout some_path (PList [PStr "-b"; PStr "topic"])
                     scenario_start)
  = Return tt.
Proof.
  destruct (X3_open_checkout_pass_items_in_order
              scenario some_path [PStr "a/b"; PStr "c"] scenario_start)
    as (Hlog & _ & Hopen & _).
  destruct (X3_open_checkout_pass_items_in_order
              scenario some_path [PStr "-b"; PStr "topic"] scenario_start)
    as (_ & _ & _ & Hcheckout).
  split; [exact Hlog|].
  split; [exact (Hopen "" "" 1%nat eq_refl)|].
  exact (Hcheckout "" "" 1%nat eq_refl).
Defined.

(** ** Which failures construction can end in *)

(** X4.  When construction raises, it is [NoSuchPathException] with the
    state untouched (the directory does not exist), or
    [MissingGitMetaCloneException] for the candidate directory, or an
    exception that [Popen] itself raised and that is no
    [GitMetaCommandException].  In no case does a [GitMetaCommandException]
    leave [__init__]. *)
Theorem X4_construction_failures :
  forall (P : Platform) (d : string) (st st' : State P) (e : exn),
    Repo.__init__ d st = (Raise e, st') ->
    ((path_exists P d (sys st) = false /\
      e = RaiseNoSuchPath ("Could not read " ++ d) /\ st' = st) \/
     (path_exists P d (sys st) = true /\ e = RaiseMissingClone d) \/
     (path_exists P d (sys st) = true /\
      exists sys',
        popen_communicate P root_cmd (Some d) (sys st)
        = (LaunchFailed e, sys'))) /\
    catches GitMetaCommandException e = false.
Proof.
  intros P d st st' e H. rewrite init_eq in H.
  destruct (path_exists P d (sys st)).
  - destruct (popen_communicate P root_cmd (Some d) (sys st))
      as [[rc out err|e0] sys'].
    + destruct ((0 =? rc) && negb (Str.all_space out)); [discriminate|].
      inversion H; subst. split; [right; left; auto | reflexivity].
    + destruct (catches GitMetaCommandException e0) eqn:Hc.
      * inversion H; subst. split; [right; left; auto | reflexivity].
      * inversion H; subst. split; [|exact Hc].
        right; right. split; [reflexivity|]. exists sys'. reflexivity.
  - inversion H; subst. split; [left; auto | reflexivity].
Qed.

Lemma X4_construction_failures_witness :
  Repo.__init__ "/tmp/x" scenario_start
  = (Raise (RaiseMissingClone "/tmp/x"),
     after_call scenario_start 1%nat root_cmd (Some "/tmp/x")) /\
  catches GitMetaCommandException (RaiseMissingClone "/tmp/x") = false.
Proof.
  assert (Hinit : Repo.__init__ "/tmp/x" scenario_start
                  = (Raise (RaiseMissingClone "/tmp/x"),
                     after_call scenario_start 1%nat root_cmd
                                (Some "/tmp/x"))) by reflexivity.
  destruct (X4_construction_failures
              scenario "/tmp/x" scenario_start _ _ Hinit) as [_ Hc].
  split; [exact Hinit | exact Hc].
Defined.

(** X5.  Construction returns a [Repo] exactly when the candidate directory
    exists and the root probe exits with code 0 printing something that is
    not blank; the [Repo] is then the one resolved from that output. *)
Theorem X5_construction_succeeds_iff :
  forall (P : Platform) (d : string) (st st' : State P) (self : Repo.instance),
    Repo.__init__ d st = (Return self, st') <->
    (path_exists P d (sys st) = true /\
     exists out err sys',
       popen_communicate P root_cmd (Some d) (sys st)
       = (Exited 0 out err, sys') /\
       Str.all_space out = false /\
       self = {| Repo.working_dir := Str.strip out;
                 Repo.git_dir := Path.join (Str.strip out) [".git"] |} /\
       st' = after_call st sys' root_cmd (Some d)).
Proof.
  intros P d st st' self. rewrite init_eq. split.
  - intros H.
    destruct (path_exists P d (sys st)); [|discriminate].
    split; [reflexivity|].
    destruct (popen_communicate P root_cmd (Some d) (sys st))
      as [[rc out err|e] sys'].
    + destruct rc; try discriminate.
      destruct (Str.all_space out) eqn:Hb; try discriminate.
      simpl in H. inversion H; subst.
      exists out, err, sys'. auto.
    + destruct (catches GitMetaCommandException e); discriminate.
  - intros (Hd & out & err & sys' & Hp & Hb & -> & ->).
    rewrite Hd, Hp, Hb. reflexivity.
Qed.

Lemma X5_construction_succeeds_witness :
  Repo.__init__ "/work/clone" scenario_start
  = (Return some_path,
     after_call scenario_start 1%nat root_cmd (Some "/work/clone")).
Proof.
  apply (proj2 (X5_construction_succeeds_iff
                  scenario "/work/clone" scenario_start _ some_path)).
  split; [reflexivity|].
  exists ("  /some/path" ++ LF), "", 1%nat.
  repeat split; reflexivity.
Defined.

(** ** What [get_working_dir] returns *)

(** X6.  [get_working_dir] returns [None] only after the root probe raised
    an exception that the [except GitMetaCommandException] clause catches.  A
    probe that exits with code 0 and prints only blanks does not give [None]:
    it gives the empty string. *)
Theorem X6_none_only_after_command_failure :
  forall (P : Platform) (d : string) (st : State P),
    (forall st',
        Repo.get_working_dir d st = (Return None, st') ->
        exists e,
          Repo._root (Some d) st = (Raise e, st') /\
          catches GitMetaCommandException e = true) /\
    (forall out err sys',
        path_exists P d (sys st) = true ->
        popen_communicate P root_cmd (Some d) (sys st)
        = (Exited 0 out err, sys') ->
        Str.all_space out = true ->
        fst (Repo.get_working_dir d st) = Return (Some "")).
Proof.
  intros P d st; split.
  - intros st' H. rewrite get_working_dir_eq in H.
    destruct (path_exists P d (sys st)); [|discriminate].
    unfold Repo._root.
    destruct (popen_communicate P root_cmd (Some d) (sys st))
      as [[rc out err|e] sys'] eqn:Hp.
    + rewrite (execute_exited _ _ _ _ _ _ _ Hp).
      destruct rc; simpl in *; try discriminate;
        inversion H; subst; eexists; split; reflexivity.
    + rewrite (execute_launch_failed _ _ _ _ _ Hp).
      destruct (catches GitMetaCommandException e) eqn:Hc; [|discriminate].
      inversion H; subst. exists e; auto.
  - intros out err sys' Hd Hp Hb.
    rewrite get_working_dir_eq, Hd, Hp; simpl.
    rewrite <- StripMore.is_empty_strip in Hb.
    rewrite (StrFacts.is_empty_true _ Hb). reflexivity.
Qed.

Lemma X6_none_witness :
  (exists e,
      Repo._root (Some "/tmp/x") scenario_start
      = (Raise e, after_call scenario_start 1%nat root_cmd (Some "/tmp/x")) /\
      catches GitMetaCommandException e = true) /\
  fst (Repo.get_working_dir "/blank" scenario_start) = Return (Some "").
Proof.
  destruct (X6_none_only_after_command_failure
              scenario "/tmp/x" scenario_start) as [Hnone _].
  destruct (X6_none_only_after_command_failure
              scenario "/blank" scenario_start) as [_ Hblank].
  split.
  - exact (Hnone _ eq_refl).
  - exact (Hblank (" " ++ LF) "" 1%nat eq_refl eq_refl eq_refl).
Defined.

(** ** When [Popen] itself raises *)

(** X7.  An exception raised by [Popen] leaves the execute operation as it
    is; when it is no [GitMetaCommandException], [get_working_dir] does not
    turn it into [None] and construction does not turn it into
    [MissingGitMetaCloneException]: both raise it unchanged. *)
Theorem X7_launch_failure_propagates :
  forall (P : Platform) (e : exn),
    (forall args cwd (st : State P) sys',
        popen_communicate P (Repo._get_git_meta_bin_object :: args) cwd (sys st)
        = (LaunchFailed e, sys') ->
        fst (Repo._execute_git_meta_cmd args cwd st) = Raise e) /\
    (forall d (st : State P) sys',
        path_exists P d (sys st) = true ->
        popen_communicate P root_cmd (Some d) (sys st)
        = (LaunchFailed e, sys') ->
        catches GitMetaCommandException e = false ->
        Repo.get_working_dir d st
        = (Raise e, after_call st sys' root_cmd (Some d)) /\
        Repo.__init__ d st
        = (Raise e, after_call st sys' root_cmd (Some d))).
Proof.
  intros P e; split.
  - intros args cwd st sys' H.
    rewrite (execute_launch_failed _ _ _ _ _ H). reflexivity.
  - intros d st sys' Hd Hp Hc.
    rewrite init_eq, get_working_dir_eq, Hd, Hp, Hc. split; reflexivity.
Qed.

Lemma X7_launch_failure_witness :
  fst (Repo.help None typed_scenario_start)
  = Raise (RaiseBuiltin TypeError "expected str, bytes or os.PathLike object")
  /\
  fst (Repo.__init__ "/tmp/x" typed_scenario_start)
  = Raise (RaiseBuiltin TypeError "expected str, bytes or os.PathLike object").
Proof.
  destruct (X7_launch_failure_propagates
              (typed_popen scenario)
              (RaiseBuiltin TypeError
                            "expected str, bytes or os.PathLike object"))
    as [Hexec Hinit].
  split.
  - exact (Hexec [PStr "help"] None typed_scenario_start 0%nat eq_refl).
  - destruct (Hinit "/tmp/x" typed_scenario_start 0%nat
                    eq_refl eq_refl eq_refl) as [_ Hi].
    rewrite Hi. reflexivity.
Defined.

(** X8.  Where [Popen] refuses a command vector holding anything but [str]
    values, the execute operation always ends in [TypeError] and runs no
    child, and construction never returns a [Repo]: it raises
    [NoSuchPathException] or that [TypeError]. *)
Theorem X8_typed_popen_refuses_every_call :
  forall (P : Platform),
    (forall args cwd (st : State (typed_popen P)),
        exists msg,
          fst (Repo._execute_git_meta_cmd args cwd st)
          = Raise (RaiseBuiltin TypeError msg) /\
          sys (snd (Repo._execute_git_meta_cmd args cwd st)) = sys st) /\
    (forall d (st : State (typed_popen P)),
        exists e,
          fst (Repo.__init__ d st) = Raise e /\
          (class_of e = NoSuchPathException \/ class_of e = TypeError)).
Proof.
  intros P; split.
  - intros args cwd st. eexists.
    rewrite (execute_launch_failed (P := typed_popen P) args cwd st _ (sys st)
                                   eq_refl).
    split; reflexivity.
  - intros d st. rewrite init_eq.
    destruct (path_exists (typed_popen P) d (sys st)).
    + eexists; split; [reflexivity | right; reflexivity].
    + eexists; split; [reflexivity | left; reflexivity].
Qed.

(** ** Handlers *)

(** X10.  For a submodule path that starts with a separator, [is_open]
    gives the same answer for every [Repo]: whether [submodule/.git]
    exists. *)
Theorem X10_absolute_submodule_ignores_repo :
  forall (P : Platform) (self other : Repo.instance) (sub : string)
         (st : State P),
    Str.startswith_sep sub = true ->
    Repo.is_open self sub st = Repo.is_open other sub st /\
    Repo.is_open self sub st
    = (Return (path_exists P (Path.join sub [".git"]) (sys st)), st).
Proof.
  intros P self other sub st Hsub.
  unfold Repo.is_open, os_path_exists.
  rewrite !(PathFacts.join_absolute _ sub Hsub). split; reflexivity.
Qed.

Lemma X10_absolute_submodule_witness :
  Repo.is_open some_path "/other" scenario_start
  = Repo.is_open {| Repo.working_dir := "/elsewhere";
                    Repo.git_dir := "/elsewhere/.git" |}
                 "/other" scenario_start /\
  fst (Repo.is_open some_path "/other" scenario_start) = Return true.
Proof.
  destruct (X10_absolute_submodule_ignores_repo
              scenario some_path
              {| Repo.working_dir := "/elsewhere";
                 Repo.git_dir := "/elsewhere/.git" |}
              "/other" scenario_start eq_refl) as [Hsame Hval].
  split; [exact Hsame|]. rewrite Hval. reflexivity.
Defined.

(** X11.  Around construction from a directory that does not exist, a
    handler for [OSError] runs and so does one for [GitMetaException], each
    from the untouched state.  Around [open] or [checkout] given something
    that is not a list, a handler for [GitMetaException] does not run: the
    assertion failure passes it. *)
Theorem X11_which_handlers_run :
  forall (P : Platform) (st : State P),
    (forall d (h : M P Repo.instance),
        path_exists P d (sys st) = false ->
        try_except (Repo.__init__ d) OSError h st = h st /\
        try_except (Repo.__init__ d) GitMetaException h st = h st) /\
    (forall self v (h : M P unit),
        isinstance_list v = false ->
        try_except (Repo.open self v) GitMetaException h st
        = (Raise RaiseAssertion, st) /\
        try_except (Repo.checkout self v) GitMetaException h st
        = (Raise RaiseAssertion, st)).
Proof.
  intros P st; split.
  - intros d h Hd. unfold try_except. rewrite init_eq, Hd.
    split; reflexivity.
  - intros self v h Hv. unfold try_except.
    destruct v; try discriminate Hv; split; reflexivity.
Qed.

Lemma X11_which_handlers_witness :
  try_except (Repo.__init__ "/nope") OSError (ret some_path) scenario_start
  = (Return some_path, scenario_start) /\
  try_except (Repo.open some_path (PStr "abc")) GitMetaException (ret tt)
             scenario_start
  = (Raise RaiseAssertion, scenario_start).
Proof.
  destruct (X11_which_handlers_run scenario scenario_start) as [Hinit Hopen].
  destruct (Hinit "/nope" (ret some_path) eq_refl) as [Hos _].
  destruct (Hopen some_path (PStr "abc") (ret tt) eq_refl) as [Ho _].
  split; [exact Hos | exact Ho].
Defined.

(** X12.  Whatever text lies between a leading and a trailing run of
    whitespace of the captured stdout, and has no whitespace at either end,
    is the value the execute operation returns when the child exits with
    code 0. *)
Theorem X12_any_trim_is_the_result :
  forall (P : Platform) (args : list pyval) (cwd : option string)
         (st : State P) (out err t : string) (sys' : Sys P),
    popen_communicate P (Repo._get_git_meta_bin_object :: args) cwd (sys st)
    = (Exited 0 out err, sys') ->
    Str.is_trim_of out t ->
    fst (Repo._execute_git_meta_cmd args cwd st) = Return t.
Proof.
  intros P args cwd st out err t sys' Hp Ht.
  rewrite (execute_exited _ _ _ _ _ _ _ Hp); simpl.
  rewrite (StrFacts.is_trim_unique out t Ht). reflexivity.
Qed.

Lemma X12_any_trim_witness :
  Str.is_trim_of ("usage: ..." ++ LF) "usage: ..." /\
  fst (Repo._execute_git_meta_cmd [PStr "help"] None scenario_start)
  = Return "usage: ...".
Proof.
  assert (Ht : Str.is_trim_of ("usage: ..." ++ LF) "usage: ...").
  { exists "", LF. repeat split; reflexivity. }
  split; [exact Ht|].
  exact (X12_any_trim_is_the_result
           scenario [PStr "help"] None scenario_start
           ("usage: ..." ++ LF) "" "usage: ..." 1%nat eq_refl Ht).
Defined.

(** X13.  When [get_working_dir] raises, it is [NoSuchPathException] with
    the state untouched, or an exception that [Popen] itself raised and that
    is no [GitMetaCommandException]; a non-zero exit code of the probe never
    shows as an exception of [get_working_dir]. *)
Theorem X13_get_working_dir_failures :
  forall (P : Platform) (d : string) (st st' : State P) (e : exn),
    Repo.get_working_dir d st = (Raise e, st') ->
    ((path_exists P d (sys st) = false /\
      e = RaiseNoSuchPath ("Could not read " ++ d) /\ st' = st) \/
     (path_exists P d (sys st) = true /\
      exists sys',
        popen_communicate P root_cmd (Some d) (sys st)
        = (LaunchFailed e, sys'))) /\
    catches GitMetaCommandException e = false.
Proof.
  intros P d st st' e H. rewrite get_working_dir_eq in H.
  destruct (path_exists P d (sys st)).
  - destruct (popen_communicate P root_cmd (Some d) (sys st))
      as [[rc out err|e0] sys'].
    + destruct (0 =? rc); discriminate.
    + destruct (catches GitMetaCommandException e0) eqn:Hc; [discriminate|].
      inversion H; subst. split; [|exact Hc].
      right. split; [reflexivity|]. exists sys'. reflexivity.
  - inversion H; subst. split; [left; auto | reflexivity].
Qed.

Lemma X13_get_working_dir_failures_witness :
  Repo.get_working_dir "/nope" scenario_start
  = (Raise (RaiseNoSuchPath "Could not read /nope"), scenario_start) /\
  catches GitMetaCommandException (RaiseNoSuchPath "Could not read /nope")
  = false.
Proof.
  assert (Hg : Repo.get_working_dir "/nope" scenario_start
               = (Raise (RaiseNoSuchPath "Could not read /nope"),
                  scenario_start)) by reflexivity.
  destruct (X13_get_working_dir_failures
              scenario "/nope" scenario_start _ _ Hg) as [_ Hc].
  split; [exact Hg | exact Hc].
Defined.
